(** * Motors: DC motor characteristics (src/__init__.py)

    A shallow embedding of the thirteen formulas of the library, run by the
    semantics of Python 3: numbers are arbitrary-precision integers or IEEE
    binary64 floats, arithmetic raises the interpreter's exceptions, and the
    module namespace is threaded through every call. *)

From Stdlib Require Import ZArith Bool Lia List SpecFloat.
From stdpp Require Import gmap strings.

Local Open Scope Z_scope.

(** ** Binary64 arithmetic

    Python's [float] is the C double.  Its operations are the correctly
    rounded IEEE 754 ones, given by the reference functions of [SpecFloat]
    at precision 53 and maximal exponent 1024. *)

Module Float64.

Definition prec : Z := 53.
Definition emax : Z := 1024.

Definition float := spec_float.

Definition fdiv : float -> float -> float := SFdiv prec emax.
Definition fmul : float -> float -> float := SFmul prec emax.
Definition fsub : float -> float -> float := SFsub prec emax.
Definition fsqrt : float -> float := SFsqrt prec emax.

Definition pzero : float := S754_zero false.

(** [(double) z]: the nearest double, ties to even; an infinity when [z] is
    beyond the range. *)
Definition of_Z (z : Z) : float := binary_normalize prec emax z 0 false.

Definition is_nan (x : float) : bool :=
  match x with S754_nan => true | _ => false end.

Definition is_inf (x : float) : bool :=
  match x with S754_infinity _ => true | _ => false end.

Definition is_finite (x : float) : bool :=
  match x with S754_zero _ | S754_finite _ _ _ => true | _ => false end.

(** C's [x == 0.0] and [x < 0.0]. *)
Definition is_zero (x : float) : bool := SFeqb x pzero.
Definition is_neg (x : float) : bool := SFltb x pzero.

(** The quotient of two integers, rounded once to the nearest double. *)
Definition div_Z (a b : Z) : float :=
  match a, b with
  | Zpos p, Zpos q => SFdiv prec emax (S754_finite false p 0) (S754_finite false q 0)
  | Zpos p, Zneg q => SFdiv prec emax (S754_finite false p 0) (S754_finite true q 0)
  | Zneg p, Zpos q => SFdiv prec emax (S754_finite true p 0) (S754_finite false q 0)
  | Zneg p, Zneg q => SFdiv prec emax (S754_finite true p 0) (S754_finite true q 0)
  | _, _ => S754_nan
  end.

(** The integer nearest to [p / q] for [0 < q], ties to even. *)
Definition round_half_even (p q : Z) : Z :=
  let k := p / q in
  match 2 * (p mod q) ?= q with
  | Lt => k
  | Gt => k + 1
  | Eq => if Z.even k then k else k + 1
  end.

(** A double of sign [s] that is not a NaN. *)
Inductive signed (s : bool) : float -> Prop :=
  | signed_zero : signed s (S754_zero s)
  | signed_infinity : signed s (S754_infinity s)
  | signed_finite m e : signed s (S754_finite s m e).

End Float64.

(** ** The Python 3 runtime, as far as the library uses it *)

Module Py.
Import Float64.

Inductive exn : Set :=
  | ZeroDivisionError
  | ValueError          (* "math domain error" *)
  | OverflowError
  | NameError
  | TypeError.

(** A number: [int] is unbounded, [float] is a double. *)
Inductive value : Set :=
  | PyInt (z : Z)
  | PyFloat (x : float).

Inductive outcome (A : Type) : Type :=
  | Return (a : A)
  | Raise (e : exn).
Arguments Return {A} a.
Arguments Raise {A} e.

#[export] Instance outcome_ret : MRet outcome := fun _ a => Return a.
#[export] Instance outcome_bind : MBind outcome := fun _ _ k c =>
  match c with
  | Return a => k a
  | Raise e => Raise e
  end.

(** *** Conversions *)

(** [PyFloat_AsDouble]: a float is taken as it is, an int is rounded to the
    nearest double and refused when it is too large. *)
Definition to_double (v : value) : outcome float :=
  match v with
  | PyFloat x => Return x
  | PyInt z => let x := of_Z z in
               if is_inf x then Raise OverflowError else Return x
  end.

(** [float(v)] *)
Definition py_float (v : value) : outcome value :=
  x ← to_double v; Return (PyFloat x).

(** *** True division, [a / b] *)

Definition float_div (a b : float) : outcome value :=
  if is_zero b then Raise ZeroDivisionError else Return (PyFloat (fdiv a b)).

(** An int with at most 53 significant bits is a double. *)
Definition is_small (z : Z) : bool := Z.abs z <? 2 ^ 53.

(** [int / int] is the exact quotient rounded once; when both operands are
    doubles it is the division of the two doubles. *)
Definition long_true_divide (a b : Z) : outcome value :=
  if b =? 0 then Raise ZeroDivisionError
  else if a =? 0 then Return (PyFloat (S754_zero (b <? 0)))
  else if is_small a && is_small b then Return (PyFloat (fdiv (of_Z a) (of_Z b)))
  else let x := div_Z a b in
       if is_inf x then Raise OverflowError else Return (PyFloat x).

Definition py_truediv (a b : value) : outcome value :=
  match a, b with
  | PyInt x, PyInt y => long_true_divide x y
  | _, _ => x ← to_double a; y ← to_double b; float_div x y
  end.

(** *** [a * b] and [a - b] *)

Definition py_mul (a b : value) : outcome value :=
  match a, b with
  | PyInt x, PyInt y => Return (PyInt (x * y))
  | _, _ => x ← to_double a; y ← to_double b; Return (PyFloat (fmul x y))
  end.

Definition py_sub (a b : value) : outcome value :=
  match a, b with
  | PyInt x, PyInt y => Return (PyInt (x - y))
  | _, _ => x ← to_double a; y ← to_double b; Return (PyFloat (fsub x y))
  end.

(** [-v], the number with its sign reversed. *)
Definition py_neg (v : value) : value :=
  match v with
  | PyInt z => PyInt (- z)
  | PyFloat x => PyFloat (SFopp x)
  end.

(** *** [math.sqrt(v)]

    The C [sqrt] is correctly rounded; a NaN result for an argument that is
    not a NaN is the domain error. *)
Definition math_sqrt (v : value) : outcome value :=
  x ← to_double v;
  let r := fsqrt x in
  if is_nan r && negb (is_nan x) then Raise ValueError else Return (PyFloat r).

(** *** [round(v, ndigits)] *)

Definition NDIGITS_MAX : Z := 323.
Definition NDIGITS_MIN : Z := -308.

(** The decimal string with [ndigits] digits after the point that is
    nearest to [x] (ties to even), read back as the nearest double. *)
Definition double_round (x : float) (ndigits : Z) : outcome value :=
  match x with
  | S754_finite s m e =>
      let num := Zpos m * 2 ^ Z.max e 0 * 10 ^ Z.max ndigits 0 in
      let den := 2 ^ Z.max (- e) 0 * 10 ^ Z.max (- ndigits) 0 in
      let k := round_half_even num den in
      let r := if k =? 0 then S754_zero s
               else if 0 <=? ndigits
                    then div_Z (if s then - k else k) (10 ^ ndigits)
                    else of_Z ((if s then - k else k) * 10 ^ (- ndigits)) in
      if is_inf r then Raise OverflowError else Return (PyFloat r)
  | _ => Return (PyFloat x)
  end.

Definition float_round (x : float) (ndigits : Z) : outcome value :=
  if negb (is_finite x) then Return (PyFloat x)
  else if ndigits >? NDIGITS_MAX then Return (PyFloat x)
  else if ndigits <? NDIGITS_MIN then Return (PyFloat (fmul pzero x))
  else double_round x ndigits.

(** [int.__round__]: the nearest multiple of [10 ** -ndigits]. *)
Definition long_round (z : Z) (ndigits : Z) : Z :=
  if 0 <=? ndigits then z
  else let p := 10 ^ (- ndigits) in round_half_even z p * p.

Definition py_round (v : value) (ndigits : Z) : outcome value :=
  match v with
  | PyFloat x => float_round x ndigits
  | PyInt z => Return (PyInt (long_round z ndigits))
  end.

(** *** [v ** 2]

    On an int the square is exact.  On a float, [float_pow] settles the
    special values itself and hands every other argument to the C library's
    [pow], whose [errno] decides between a result and an exception. *)

Inductive errno : Set := ENONE | EDOM | ERANGE.

Definition adjust_erange1 (x : float) (err : errno) : errno :=
  match err with
  | ENONE => if is_inf x then ERANGE else ENONE
  | ERANGE => if is_zero x then ENONE else ERANGE
  | EDOM => EDOM
  end.

Definition two : float := of_Z 2.
Definition one : float := of_Z 1.

Section Libm.

(** [pow] of the C library: its result and the [errno] it leaves. *)
Variable libm_pow : float -> float -> float * errno.

Definition float_pow2 (iv : float) : outcome value :=
  if is_nan iv then Return (PyFloat iv)
  else if is_inf iv then Return (PyFloat (SFabs iv))
  else if is_zero iv then Return (PyFloat pzero)
  else let iv := if is_neg iv then SFopp iv else iv in
       if SFeqb iv one then Return (PyFloat one)
       else let '(ix, err) := libm_pow iv two in
            match adjust_erange1 ix err with
            | ENONE => Return (PyFloat ix)
            | ERANGE => Raise OverflowError
            | EDOM => Raise ValueError
            end.

Definition py_pow2 (v : value) : outcome value :=
  match v with
  | PyInt z => Return (PyInt (z * z))
  | PyFloat x => float_pow2 x
  end.

End Libm.

(** A C library whose [pow] is correctly rounded at the exponent 2. *)
Definition pow_rn (x y : float) : float * errno :=
  let r := fmul x x in (r, if is_inf r then ERANGE else ENONE).

(** *** Names and the interpreter state

    A function body reaches a name that is not one of its parameters through
    the namespace of its module and then through the builtins.  The
    namespace is the only state the interpreter carries from one call of the
    library to the next. *)

Inductive object : Set :=
  | Number (v : value)
  | ModuleObject (name : string)
  | FunctionObject (name : string)
  | BuiltinObject (name : string)
  | OtherObject.

Abbreviation namespace := (gmap string object).

(** The functions of the [builtins] module. *)
Definition builtin_names : list string :=
  [ "abs"; "aiter"; "all"; "anext"; "any"; "ascii"; "bin"; "bool";
    "breakpoint"; "bytearray"; "bytes"; "callable"; "chr"; "classmethod";
    "compile"; "complex"; "delattr"; "dict"; "dir"; "divmod"; "enumerate";
    "eval"; "exec"; "filter"; "float"; "format"; "frozenset"; "getattr";
    "globals"; "hasattr"; "hash"; "help"; "hex"; "id"; "input"; "int";
    "isinstance"; "issubclass"; "iter"; "len"; "list"; "locals"; "map";
    "max"; "memoryview"; "min"; "next"; "object"; "oct"; "open"; "ord";
    "pow"; "print"; "property"; "range"; "repr"; "reversed"; "round"; "set";
    "setattr"; "slice"; "sorted"; "staticmethod"; "str"; "sum"; "super";
    "tuple"; "type"; "vars"; "zip"; "__import__" ]%string.

Definition builtins : namespace :=
  list_to_map (map (fun n => (n, BuiltinObject n)) builtin_names).

(** A computation of the interpreter: it reads and hands on the namespace
    and ends in a value or an exception. *)
Definition M (A : Type) : Type := namespace -> outcome A * namespace.

#[export] Instance M_ret : MRet M := fun _ a g => (Return a, g).
#[export] Instance M_bind : MBind M := fun _ _ k c g =>
  match c g with
  | (Return a, g') => k a g'
  | (Raise e, g') => (Raise e, g')
  end.

Definition lift {A : Type} (o : outcome A) : M A := fun g => (o, g).

(** [LOAD_GLOBAL name] *)
Definition load_global (name : string) : M object := fun g =>
  match g !! name with
  | Some o => (Return o, g)
  | None =>
      match builtins !! name with
      | Some o => (Return o, g)
      | None => (Raise NameError, g)
      end
  end.

(** [float(o)] on whatever a name is bound to. *)
Definition float_object (o : object) : outcome value :=
  match o with
  | Number v => py_float v
  | _ => Raise TypeError
  end.

End Py.

(** ** The library *)

Module Motors.
Import Float64 Py.

(** The namespace of the module once it is imported: [math], the thirteen
    functions, and the attributes every module has. *)
Definition motors_globals : namespace :=
  list_to_map
    [ ("__name__", OtherObject); ("__doc__", OtherObject);
      ("__package__", OtherObject); ("__loader__", OtherObject);
      ("__spec__", OtherObject); ("__file__", OtherObject);
      ("__cached__", OtherObject); ("__builtins__", ModuleObject "builtins");
      ("math", ModuleObject "math");
      ("torque_constant", FunctionObject "torque_constant");
      ("electrical_constant", FunctionObject "electrical_constant");
      ("speed_constant", FunctionObject "speed_constant");
      ("motor_constant", FunctionObject "motor_constant");
      ("max_continuous_current", FunctionObject "max_continuous_current");
      ("max_continuous_torque", FunctionObject "max_continuous_torque");
      ("short_circuit_damping", FunctionObject "short_circuit_damping");
      ("electrical_time_constant", FunctionObject "electrical_time_constant");
      ("mechanical_time_constant", FunctionObject "mechanical_time_constant");
      ("stall_current", FunctionObject "stall_current");
      ("stall_torque", FunctionObject "stall_torque");
      ("max_mechanical_power", FunctionObject "max_mechanical_power");
      ("max_efficiency", FunctionObject "max_efficiency") ]%string.

(** [dec=1] *)
Definition default_dec : Z := 1.

Section Library.

Variable libm_pow : float -> float -> float * errno.

Notation "v '**2'" := (lift (py_pow2 libm_pow v)) (at level 1, format "v '**2'").

(** The names [float], [round] and [math] are bound by the builtins and by
    the import and never rebound; their calls are the operations of [Py].
    Operands are evaluated from left to right. *)

(* return round(V_nom/float(w_0), dec) *)
Definition torque_constant (V_nom w_0 : value) (dec : Z) : M value :=
  d ← lift (py_float w_0);
  q ← lift (py_truediv V_nom d);
  lift (py_round q dec).

(* return V_nom/float(w_0) *)
Definition electrical_constant (V_nom w_0 : value) (dec : Z) : M value :=
  d ← lift (py_float w_0);
  lift (py_truediv V_nom d).

(* return w_0/float(V_nom) *)
Definition speed_constant (V_nom w_0 : value) (dec : Z) : M value :=
  d ← lift (py_float V_nom);
  lift (py_truediv w_0 d).

(* return round(V_nom/(float(w_0)*math.sqrt(R)), dec) *)
Definition motor_constant (V_nom w_0 R : value) (dec : Z) : M value :=
  f ← lift (py_float w_0);
  s ← lift (math_sqrt R);
  d ← lift (py_mul f s);
  q ← lift (py_truediv V_nom d);
  lift (py_round q dec).

(* return math.sqrt((P/float(R))) *)
Definition max_continuous_current (P R : value) (dec : Z) : M value :=
  d ← lift (py_float R);
  q ← lift (py_truediv P d);
  lift (math_sqrt q).

(* return V_nom*(math.sqrt((P/R))/float(w_0)) *)
Definition max_continuous_torque (P R V_nom : value) (dec : Z) : M value :=
  q ← lift (py_truediv P R);
  s ← lift (math_sqrt q);
  w_0 ← load_global "w_0";
  d ← lift (float_object w_0);
  t ← lift (py_truediv s d);
  lift (py_mul V_nom t).

(* return round((V_nom**2)/float(((w_0**2)*R)), dec) *)
Definition short_circuit_damping (V_nom w_0 R : value) (dec : Z) : M value :=
  n ← V_nom**2;
  w2 ← w_0**2;
  p ← lift (py_mul w2 R);
  d ← lift (py_float p);
  q ← lift (py_truediv n d);
  lift (py_round q dec).

(* return round((L/float(R)), dec) *)
Definition electrical_time_constant (L R : value) (dec : Z) : M value :=
  d ← lift (py_float R);
  q ← lift (py_truediv L d);
  lift (py_round q dec).

(* return round((J*R*(w_0**2))/float((V_nom**2)), dec) *)
Definition mechanical_time_constant (J R V_nom w_0 : value) (dec : Z) : M value :=
  jr ← lift (py_mul J R);
  w2 ← w_0**2;
  n ← lift (py_mul jr w2);
  v2 ← V_nom**2;
  d ← lift (py_float v2);
  q ← lift (py_truediv n d);
  lift (py_round q dec).

(* return round((V_nom/float(R)), dec) *)
Definition stall_current (R V_nom : value) (dec : Z) : M value :=
  d ← lift (py_float R);
  q ← lift (py_truediv V_nom d);
  lift (py_round q dec).

(* return round(((V_nom**2)/float(R*w_0)), dec) *)
Definition stall_torque (R V_nom w_0 : value) (dec : Z) : M value :=
  n ← V_nom**2;
  p ← lift (py_mul R w_0);
  d ← lift (py_float p);
  q ← lift (py_truediv n d);
  lift (py_round q dec).

(* return round(((V_nom**2)/float((4*R))), dec) *)
Definition max_mechanical_power (R V_nom : value) (dec : Z) : M value :=
  n ← V_nom**2;
  p ← lift (py_mul (PyInt 4) R);
  d ← lift (py_float p);
  q ← lift (py_truediv n d);
  lift (py_round q dec).

(* return round(((1-math.sqrt((I_0*R))/float(V_nom))**2), dec) *)
Definition max_efficiency (I_0 R V_nom : value) (dec : Z) : M value :=
  p ← lift (py_mul I_0 R);
  s ← lift (math_sqrt p);
  d ← lift (py_float V_nom);
  q ← lift (py_truediv s d);
  x ← lift (py_sub (PyInt 1) q);
  y ← x**2;
  lift (py_round y dec).

(** *** Calls

    The library as a caller sees it: a function, its positional arguments
    and the rounding precision.  A wrong number of arguments is the
    interpreter's [TypeError]. *)

Inductive func : Set :=
  | TorqueConstant | ElectricalConstant | SpeedConstant | MotorConstant
  | MaxContinuousCurrent | MaxContinuousTorque | ShortCircuitDamping
  | ElectricalTimeConstant | MechanicalTimeConstant | StallCurrent
  | StallTorque | MaxMechanicalPower | MaxEfficiency.

Record invocation : Set := Invoke { callee : func; arguments : list value; precision : Z }.

Definition call (c : invocation) : M value :=
  let dec := precision c in
  match callee c, arguments c with
  | TorqueConstant, [V_nom; w_0] => torque_constant V_nom w_0 dec
  | ElectricalConstant, [V_nom; w_0] => electrical_constant V_nom w_0 dec
  | SpeedConstant, [V_nom; w_0] => speed_constant V_nom w_0 dec
  | MotorConstant, [V_nom; w_0; R] => motor_constant V_nom w_0 R dec
  | MaxContinuousCurrent, [P; R] => max_continuous_current P R dec
  | MaxContinuousTorque, [P; R; V_nom] => max_continuous_torque P R V_nom dec
  | ShortCircuitDamping, [V_nom; w_0; R] => short_circuit_damping V_nom w_0 R dec
  | ElectricalTimeConstant, [L; R] => electrical_time_constant L R dec
  | MechanicalTimeConstant, [J; R; V_nom; w_0] => mechanical_time_constant J R V_nom w_0 dec
  | StallCurrent, [R; V_nom] => stall_current R V_nom dec
  | StallTorque, [R; V_nom; w_0] => stall_torque R V_nom w_0 dec
  | MaxMechanicalPower, [R; V_nom] => max_mechanical_power R V_nom dec
  | MaxEfficiency, [I_0; R; V_nom] => max_efficiency I_0 R V_nom dec
  | _, _ => lift (Raise TypeError)
  end.


(** *** The formulas as the specification words them *)

(** [round(V_nom/w_0, dec)]: the quotient V / w0, rounded to [dec] places. *)
Definition spec_torque_constant (V_nom w_0 : value) (dec : Z) : outcome value :=
  q ← py_truediv V_nom w_0;
  py_round q dec.

(** [round(V_nom**2/(4*R), dec)]: V² / (4R), rounded to [dec] places. *)
Definition spec_max_mechanical_power (R V_nom : value) (dec : Z) : outcome value :=
  n ← py_pow2 libm_pow V_nom;
  d ← py_mul (PyInt 4) R;
  q ← py_truediv n d;
  py_round q dec.

End Library.

(** *** Classes of inputs *)

(** [v] is a number of the data model with the double [x]: a float, or an
    int that a double holds. *)
Definition number (v : value) (x : float) : Prop := to_double v = Return x.

Definition is_number (v : value) : Prop := exists x, number v x.

(** A number that is neither an infinity nor a NaN. *)
Definition is_finite_number (v : value) : Prop :=
  exists x, number v x /\ is_finite x = true.

(** A zero: [0], [0.0] or [-0.0]. *)
Definition zero (v : value) : Prop :=
  match v with
  | PyInt z => z = 0
  | PyFloat x => is_zero x = true
  end.

(** A number below zero. *)
Definition negative (v : value) : Prop :=
  exists x, number v x /\ is_neg x = true.

(** A positive finite double. *)
Definition positive_finite (x : float) : Prop :=
  match x with
  | S754_finite false _ _ => True
  | _ => False
  end.

(** Two operands of a division that are doubles already: a float on either
    side, or two ints of at most 53 bits. *)
Definition double_operands (a b : value) : Prop :=
  match a, b with
  | PyInt x, PyInt y => is_small x = true /\ is_small y = true
  | _, _ => True
  end.

(** The operands [V_nom**2] and [4*R] are doubles already. *)
Definition power_operands (R V_nom : value) : Prop :=
  match V_nom, R with
  | PyInt v, PyInt r => double_operands (PyInt (v * v)) (PyInt (4 * r))
  | _, _ => True
  end.

Section Boundaries.

Variable libm_pow : float -> float -> float * errno.

(** A call that passes a zero for a parameter of its denominator, while the
    operands evaluated before the division are numbers and the other factor
    of the denominator, if there is one, is finite. *)
Inductive zero_denominator : invocation -> Prop :=
  | zd_torque_constant V_nom w_0 dec :
      zero w_0 -> is_number V_nom ->
      zero_denominator (Invoke TorqueConstant [V_nom; w_0] dec)
  | zd_electrical_constant V_nom w_0 dec :
      zero w_0 -> is_number V_nom ->
      zero_denominator (Invoke ElectricalConstant [V_nom; w_0] dec)
  | zd_speed_constant V_nom w_0 dec :
      zero V_nom -> is_number w_0 ->
      zero_denominator (Invoke SpeedConstant [V_nom; w_0] dec)
  | zd_motor_constant_w_0 V_nom w_0 R s dec :
      zero w_0 -> math_sqrt R = Return s -> is_finite_number s ->
      is_number V_nom ->
      zero_denominator (Invoke MotorConstant [V_nom; w_0; R] dec)
  | zd_motor_constant_R V_nom w_0 R dec :
      zero R -> is_finite_number w_0 -> is_number V_nom ->
      zero_denominator (Invoke MotorConstant [V_nom; w_0; R] dec)
  | zd_max_continuous_current P R dec :
      zero R -> is_number P ->
      zero_denominator (Invoke MaxContinuousCurrent [P; R] dec)
  | zd_max_continuous_torque P R V_nom dec :
      zero R -> is_number P ->
      zero_denominator (Invoke MaxContinuousTorque [P; R; V_nom] dec)
  | zd_short_circuit_damping_w_0 V_nom w_0 R n dec :
      zero w_0 -> is_finite_number R ->
      py_pow2 libm_pow V_nom = Return n -> is_number n ->
      zero_denominator (Invoke ShortCircuitDamping [V_nom; w_0; R] dec)
  | zd_short_circuit_damping_R V_nom w_0 R n w2 dec :
      zero R -> py_pow2 libm_pow w_0 = Return w2 -> is_finite_number w2 ->
      py_pow2 libm_pow V_nom = Return n -> is_number n ->
      zero_denominator (Invoke ShortCircuitDamping [V_nom; w_0; R] dec)
  | zd_electrical_time_constant L R dec :
      zero R -> is_number L ->
      zero_denominator (Invoke ElectricalTimeConstant [L; R] dec)
  | zd_mechanical_time_constant J R V_nom w_0 n dec :
      zero V_nom ->
      (jr ← py_mul J R; w2 ← py_pow2 libm_pow w_0; py_mul jr w2) = Return n ->
      is_number n ->
      zero_denominator (Invoke MechanicalTimeConstant [J; R; V_nom; w_0] dec)
  | zd_stall_current R V_nom dec :
      zero R -> is_number V_nom ->
      zero_denominator (Invoke StallCurrent [R; V_nom] dec)
  | zd_stall_torque_R R V_nom w_0 n dec :
      zero R -> is_finite_number w_0 ->
      py_pow2 libm_pow V_nom = Return n -> is_number n ->
      zero_denominator (Invoke StallTorque [R; V_nom; w_0] dec)
  | zd_stall_torque_w_0 R V_nom w_0 n dec :
      zero w_0 -> is_finite_number R ->
      py_pow2 libm_pow V_nom = Return n -> is_number n ->
      zero_denominator (Invoke StallTorque [R; V_nom; w_0] dec)
  | zd_max_mechanical_power R V_nom n dec :
      zero R -> py_pow2 libm_pow V_nom = Return n -> is_number n ->
      zero_denominator (Invoke MaxMechanicalPower [R; V_nom] dec)
  | zd_max_efficiency I_0 R V_nom s dec :
      zero V_nom -> (p ← py_mul I_0 R; math_sqrt p) = Return s ->
      zero_denominator (Invoke MaxEfficiency [I_0; R; V_nom] dec).

(** A call whose square root is taken of a number below zero. *)
Inductive negative_sqrt_argument : invocation -> Prop :=
  | ns_max_continuous_current P R q dec :
      (d ← py_float R; py_truediv P d) = Return q -> negative q ->
      negative_sqrt_argument (Invoke MaxContinuousCurrent [P; R] dec)
  | ns_motor_constant V_nom w_0 R dec :
      is_number w_0 -> negative R ->
      negative_sqrt_argument (Invoke MotorConstant [V_nom; w_0; R] dec)
  | ns_max_efficiency I_0 R V_nom p dec :
      py_mul I_0 R = Return p -> negative p ->
      negative_sqrt_argument (Invoke MaxEfficiency [I_0; R; V_nom] dec).

End Boundaries.

End Motors.

(** * Properties *)

Import Float64 Py Motors.

(** ** Rounding keeps the sign *)

Section Rounding.

(** Shifting a mantissa to the right never makes it negative. *)
Lemma shr_1_nonneg mrs : 0 <= shr_m mrs -> 0 <= shr_m (shr_1 mrs).
Proof.
  destruct mrs as [m r s]; simpl.
  destruct m as [|[p|p|]|[p|p|]]; simpl; lia.
Qed.

Lemma iter_pos_invariant {A} (P : A -> Prop) (f : A -> A) :
  (forall x, P x -> P (f x)) -> forall n x, P x -> P (SpecFloat.iter_pos f n x).
Proof.
  intros Hf; induction n as [n IH|n IH|]; intros x Hx; simpl; auto.
Qed.

Lemma shr_nonneg mrs e n : 0 <= shr_m mrs -> 0 <= shr_m (fst (shr mrs e n)).
Proof.
  intros H; destruct n; simpl; auto.
  apply (iter_pos_invariant (fun r => 0 <= shr_m r)); auto using shr_1_nonneg.
Qed.

Lemma shr_record_of_loc_m m l : shr_m (shr_record_of_loc m l) = m.
Proof. destruct l as [|[]]; reflexivity. Qed.

Lemma shr_fexp_nonneg m e l : 0 <= m -> 0 <= shr_m (fst (shr_fexp prec emax m e l)).
Proof.
  intros H; unfold shr_fexp; apply shr_nonneg.
  now rewrite shr_record_of_loc_m.
Qed.

Lemma round_nearest_even_nonneg m l : 0 <= m -> 0 <= round_nearest_even m l.
Proof.
  intros H; destruct l as [|[]]; simpl; try lia.
  destruct (Z.even m); lia.
Qed.

(** The shape of a rounded result: it keeps its sign, and a mantissa that
    is not negative never rounds to a NaN. *)
Lemma binary_round_aux_signed s m e l :
  0 <= m -> signed s (binary_round_aux prec emax s m e l).
Proof.
  intros Hm; unfold binary_round_aux.
  pose proof (shr_fexp_nonneg m e l Hm) as H1.
  destruct (shr_fexp prec emax m e l) as [mrs' e']; simpl in H1.
  pose proof (shr_fexp_nonneg
    (round_nearest_even (shr_m mrs') (loc_of_shr_record mrs')) e' loc_Exact
    (round_nearest_even_nonneg _ _ H1)) as H2.
  destruct (shr_fexp prec emax _ e' loc_Exact) as [mrs'' e'']; simpl in H2.
  destruct (shr_m mrs''); try lia; try constructor.
  destruct (e'' <=? emax - prec); constructor.
Qed.

Lemma fdiv_signed sx mx ex sy my ey :
  signed (xorb sx sy) (fdiv (S754_finite sx mx ex) (S754_finite sy my ey)).
Proof.
  unfold fdiv, SFdiv.
  destruct (SFdiv_core_binary prec emax (Z.pos mx) ex (Z.pos my) ey) as [[q e'] l] eqn:E.
  apply binary_round_aux_signed.
  unfold SFdiv_core_binary in E.
  destruct (Z.div_eucl _ (Z.pos my)) as [q' r] eqn:D in E.
  injection E as <- _ _.
  match type of D with Z.div_eucl ?a ?b = _ =>
    assert (0 <= a) as Ha; [| pose proof (Z_div_mod a b ltac:(lia)) as Hd;
      rewrite D in Hd; nia] end.
  destruct (ex - ey - _); try lia.
  apply Z.shiftl_nonneg; lia.
Qed.

Lemma fsqrt_signed m e : signed false (fsqrt (S754_finite false m e)).
Proof.
  unfold fsqrt, SFsqrt.
  destruct (SFsqrt_core_binary prec emax (Z.pos m) e) as [[q e'] l] eqn:E.
  apply binary_round_aux_signed.
  unfold SFsqrt_core_binary in E.
  destruct (Z.sqrtrem _) as [q' r] eqn:D in E.
  injection E as <- _ _.
  match type of D with Z.sqrtrem ?a = _ =>
    assert (0 <= a) as Ha; [| pose proof (Z.sqrtrem_spec a Ha) as Hd;
      rewrite D in Hd; nia] end.
  destruct (e - _); try lia.
  apply Z.shiftl_nonneg; lia.
Qed.

Lemma fmul_signed sx mx ex sy my ey :
  signed (xorb sx sy) (fmul (S754_finite sx mx ex) (S754_finite sy my ey)).
Proof. apply binary_round_aux_signed; lia. Qed.

End Rounding.

(** ** Small integers are doubles *)

Section Conversion.

Lemma digits2_pos_bound p :
  2 ^ (Z.pos (digits2_pos p) - 1) <= Z.pos p < 2 ^ Z.pos (digits2_pos p).
Proof.
  induction p as [p IH|p IH|]; simpl digits2_pos; [| |simpl; lia];
    rewrite Pos2Z.inj_succ, Z.pow_succ_r by lia;
    replace (Z.succ (Z.pos (digits2_pos p)) - 1) with (Z.succ (Z.pos (digits2_pos p) - 1)) by lia;
    rewrite Z.pow_succ_r by lia; lia.
Qed.

Lemma digits2_pos_small p : Z.pos p < 2 ^ 53 -> Z.pos (digits2_pos p) <= 53.
Proof.
  intros H. destruct (Z.le_gt_cases (Z.pos (digits2_pos p)) 53) as [|G]; auto.
  pose proof (digits2_pos_bound p) as [L _].
  assert (2 ^ 53 <= 2 ^ (Z.pos (digits2_pos p) - 1)) by (apply Z.pow_le_mono_r; lia).
  lia.
Qed.

Lemma digits2_pos_iter p k :
  digits2_pos (Pos.iter xO p k) = (digits2_pos p + k)%positive.
Proof.
  induction k as [|k IH] using Pos.peano_ind.
  - simpl. now rewrite Pos.add_1_r.
  - rewrite Pos.iter_succ; simpl. rewrite IH. now rewrite Pos.add_succ_r.
Qed.

(** A mantissa of 53 bits with an exponent in range is a double as it is. *)
Lemma binary_round_aux_exact s m e :
  Z.pos (digits2_pos m) = 53 -> -1074 <= e <= 971 ->
  binary_round_aux prec emax s (Z.pos m) e loc_Exact = S754_finite s m e.
Proof.
  intros Hd He. unfold binary_round_aux, shr_fexp. simpl Zdigits2. rewrite Hd.
  replace (fexp prec emax (53 + e) - e) with 0
    by (unfold fexp, emin, prec, emax; lia).
  simpl. rewrite Hd.
  replace (fexp prec emax (53 + e) - e) with 0
    by (unfold fexp, emin, prec, emax; lia).
  simpl. unfold emax, prec.
  destruct (Z.leb_spec e (1024 - 53)); [reflexivity | lia].
Qed.

Lemma binary_round_small s p :
  Z.pos p < 2 ^ 53 -> exists m e, binary_round prec emax s p 0 = S754_finite s m e.
Proof.
  intros Hp. pose proof (digits2_pos_small p Hp) as Hd.
  unfold binary_round, shl_align.
  replace (fexp prec emax (Z.pos (digits2_pos p) + 0)) with (Z.pos (digits2_pos p) - 53)
    by (unfold fexp, emin, prec, emax; lia).
  rewrite Z.sub_0_r.
  destruct (Z.pos (digits2_pos p) - 53) as [|k|k] eqn:E; try lia.
  - exists p, 0. apply binary_round_aux_exact; lia.
  - exists (Pos.iter xO p k), (Z.neg k). apply binary_round_aux_exact; try lia.
    rewrite digits2_pos_iter, Pos2Z.inj_add. lia.
Qed.

(** An int of at most 53 bits converts to a finite double of its sign. *)
Lemma of_Z_small z :
  z <> 0 -> is_small z = true -> exists m e, of_Z z = S754_finite (z <? 0) m e.
Proof.
  unfold is_small; intros Hz Hs. apply Z.ltb_lt in Hs.
  destruct z as [|p|p]; [congruence| |]; simpl in *;
    apply binary_round_small; lia.
Qed.

Lemma to_double_small z : is_small z = true -> to_double (PyInt z) = Return (of_Z z).
Proof.
  intros Hs. destruct (Z.eq_dec z 0) as [->|Hz]; [reflexivity|].
  destruct (of_Z_small z Hz Hs) as (m & e & E). unfold to_double. now rewrite E.
Qed.

End Conversion.

(** ** Rounding to decimal places *)

Section Decimal.

(** [round_half_even p q] is an integer nearest to [p / q]. *)
Lemma round_half_even_nearest p q :
  0 < q -> 2 * Z.abs (round_half_even p q * q - p) <= q.
Proof.
  intros Hq. unfold round_half_even.
  pose proof (Z.div_mod p q ltac:(lia)) as D.
  pose proof (Z.mod_pos_bound p q Hq) as B.
  destruct (Z.compare_spec (2 * (p mod q)) q); [destruct (Z.even (p / q))| |];
    nia.
Qed.

(** Between two nearest integers it is the even one. *)
Lemma round_half_even_tie p q :
  0 < q -> 2 * Z.abs (round_half_even p q * q - p) = q ->
  Z.even (round_half_even p q) = true.
Proof.
  intros Hq. unfold round_half_even.
  pose proof (Z.div_mod p q ltac:(lia)) as D.
  pose proof (Z.mod_pos_bound p q Hq) as B.
  destruct (Z.compare_spec (2 * (p mod q)) q) as [E|L|G]; intros T.
  - destruct (Z.even (p / q)) eqn:Ev; [exact Ev|].
    rewrite Z.even_add, Ev. reflexivity.
  - nia.
  - nia.
Qed.

(** Rounding an int to a multiple of a power of ten keeps it within half
    that power. *)
Lemma long_round_nearest z ndigits :
  ndigits < 0 ->
  (10 ^ (- ndigits) | long_round z ndigits)
  /\ 2 * Z.abs (long_round z ndigits - z) <= 10 ^ (- ndigits).
Proof.
  intros Hn. unfold long_round.
  destruct (Z.leb_spec 0 ndigits) as [|_]; [lia|].
  assert (0 < 10 ^ (- ndigits)) as Hp by (apply Z.pow_pos_nonneg; lia).
  split.
  - apply Z.divide_factor_r.
  - now apply round_half_even_nearest.
Qed.

End Decimal.

(** ** Running the functions *)

Lemma bind_lift {A B} (o : outcome A) (k : A -> M B) g :
  (lift o ≫= k) g = match o with Return a => k a g | Raise e => (Raise e, g) end.
Proof. destruct o; reflexivity. Qed.

Ltac run_pure :=
  unfold mbind, M_bind, outcome_bind, lift;
  repeat match goal with
         | |- context [match ?o with Return _ => _ | Raise _ => _ end] =>
             destruct o; try reflexivity
         end.

Lemma w_0_not_builtin : builtins !! "w_0"%string = None.
Proof. reflexivity. Qed.

Lemma w_0_not_global : motors_globals !! "w_0"%string = None.
Proof. reflexivity. Qed.

Section Runs.

Variable libm_pow : float -> float -> float * errno.

Lemma torque_constant_run V w dec g :
  torque_constant V w dec g
  = (d ← py_float w; q ← py_truediv V d; py_round q dec, g).
Proof. unfold torque_constant; run_pure. Qed.

Lemma electrical_constant_run V w dec g :
  electrical_constant V w dec g = (d ← py_float w; py_truediv V d, g).
Proof. unfold electrical_constant; run_pure. Qed.

Lemma speed_constant_run V w dec g :
  speed_constant V w dec g = (d ← py_float V; py_truediv w d, g).
Proof. unfold speed_constant; run_pure. Qed.

Lemma motor_constant_run V w R dec g :
  motor_constant V w R dec g
  = (f ← py_float w; s ← math_sqrt R; d ← py_mul f s;
     q ← py_truediv V d; py_round q dec, g).
Proof. unfold motor_constant; run_pure. Qed.

Lemma max_continuous_current_run P R dec g :
  max_continuous_current P R dec g
  = (d ← py_float R; q ← py_truediv P d; math_sqrt q, g).
Proof. unfold max_continuous_current; run_pure. Qed.

Lemma max_continuous_torque_run P R V dec g :
  max_continuous_torque P R V dec g
  = (q ← py_truediv P R; s ← math_sqrt q;
     match g !! "w_0"%string with
     | Some w_0 => d ← float_object w_0; t ← py_truediv s d; py_mul V t
     | None => Raise NameError
     end, g).
Proof.
  unfold max_continuous_torque, mbind, M_bind, outcome_bind, lift, load_global.
  destruct (py_truediv P R); [|reflexivity].
  destruct (math_sqrt a); [|reflexivity].
  rewrite w_0_not_builtin.
  destruct (g !! "w_0"%string); [|reflexivity].
  destruct (float_object o); [|reflexivity].
  destruct (py_truediv a0 a1); reflexivity.
Qed.

Lemma short_circuit_damping_run V w R dec g :
  short_circuit_damping libm_pow V w R dec g
  = (n ← py_pow2 libm_pow V; w2 ← py_pow2 libm_pow w; p ← py_mul w2 R;
     d ← py_float p; q ← py_truediv n d; py_round q dec, g).
Proof. unfold short_circuit_damping; run_pure. Qed.

Lemma electrical_time_constant_run L R dec g :
  electrical_time_constant L R dec g
  = (d ← py_float R; q ← py_truediv L d; py_round q dec, g).
Proof. unfold electrical_time_constant; run_pure. Qed.

Lemma mechanical_time_constant_run J R V w dec g :
  mechanical_time_constant libm_pow J R V w dec g
  = (jr ← py_mul J R; w2 ← py_pow2 libm_pow w; n ← py_mul jr w2;
     v2 ← py_pow2 libm_pow V; d ← py_float v2; q ← py_truediv n d;
     py_round q dec, g).
Proof. unfold mechanical_time_constant; run_pure. Qed.

Lemma stall_current_run R V dec g :
  stall_current R V dec g
  = (d ← py_float R; q ← py_truediv V d; py_round q dec, g).
Proof. unfold stall_current; run_pure. Qed.

Lemma stall_torque_run R V w dec g :
  stall_torque libm_pow R V w dec g
  = (n ← py_pow2 libm_pow V; p ← py_mul R w; d ← py_float p;
     q ← py_truediv n d; py_round q dec, g).
Proof. unfold stall_torque; run_pure. Qed.

Lemma max_mechanical_power_run R V dec g :
  max_mechanical_power libm_pow R V dec g
  = (n ← py_pow2 libm_pow V; p ← py_mul (PyInt 4) R; d ← py_float p;
     q ← py_truediv n d; py_round q dec, g).
Proof. unfold max_mechanical_power; run_pure. Qed.

Lemma max_efficiency_run I_0 R V dec g :
  max_efficiency libm_pow I_0 R V dec g
  = (p ← py_mul I_0 R; s ← math_sqrt p; d ← py_float V; q ← py_truediv s d;
     x ← py_sub (PyInt 1) q; y ← py_pow2 libm_pow x; py_round y dec, g).
Proof. unfold max_efficiency; run_pure. Qed.



End Runs.

(** ** The operations on zeros, negative and positive numbers *)

Section Operations.

Lemma is_zero_inv x : is_zero x = true -> exists s, x = S754_zero s.
Proof. destruct x as [s|[]| |[] m e]; try discriminate; eauto. Qed.

Lemma is_zero_finite s m e : is_zero (S754_finite s m e) = false.
Proof. now destruct s. Qed.

Lemma is_neg_inv x :
  is_neg x = true -> x = S754_infinity true \/ exists m e, x = S754_finite true m e.
Proof. destruct x as [s|[]| |[] m e]; try discriminate; eauto. Qed.

Lemma positive_finite_inv x :
  positive_finite x -> exists m e, x = S754_finite false m e.
Proof. destruct x as [s|s| |[] m e]; simpl; try tauto; eauto. Qed.

Lemma py_float_number v x : number v x -> py_float v = Return (PyFloat x).
Proof. unfold number, py_float; intros ->; reflexivity. Qed.

Lemma py_float_zero v :
  zero v -> exists s, py_float v = Return (PyFloat (S754_zero s)).
Proof.
  destruct v as [z|x]; simpl.
  - intros ->. now exists false.
  - intros H; apply is_zero_inv in H as [s ->]. now exists s.
Qed.

Lemma zero_number v : zero v -> exists s, number v (S754_zero s).
Proof.
  destruct v as [z|x]; simpl.
  - intros ->. now exists false.
  - intros H; apply is_zero_inv in H as [s ->]. now exists s.
Qed.

(** Dividing a number by a float zero. *)
Lemma truediv_float_zero a s :
  is_number a -> py_truediv a (PyFloat (S754_zero s)) = Raise ZeroDivisionError.
Proof.
  intros [x Hx]; unfold number in Hx.
  destruct a as [z|y]; simpl in *; [rewrite Hx|]; reflexivity.
Qed.

Lemma truediv_zero a b :
  is_number a -> zero b -> py_truediv a b = Raise ZeroDivisionError.
Proof.
  intros Ha Hb. destruct b as [z|y]; simpl in Hb.
  - subst z. destruct a as [w|x]; [reflexivity|].
    destruct Ha as [x' Hx]; reflexivity.
  - apply is_zero_inv in Hb as [s ->]. now apply truediv_float_zero.
Qed.

Lemma float_truediv_zero a d :
  is_number a -> zero d ->
  (d' ← py_float d; py_truediv a d') = Raise ZeroDivisionError.
Proof.
  intros Ha Hd. destruct (py_float_zero d Hd) as [s ->]; simpl.
  now apply truediv_float_zero.
Qed.

Lemma fmul_zero_l s y : is_finite y = true -> exists t, fmul (S754_zero s) y = S754_zero t.
Proof. destruct y; try discriminate; simpl; eauto. Qed.

Lemma fmul_zero_r x s : is_finite x = true -> exists t, fmul x (S754_zero s) = S754_zero t.
Proof. destruct x; try discriminate; simpl; eauto. Qed.

(** A zero times a finite number is a zero. *)
Lemma mul_zero_l a b :
  zero a -> is_finite_number b -> exists p, py_mul a b = Return p /\ zero p.
Proof.
  intros Ha (y & Hy & Fy). destruct (zero_number a Ha) as [s Hs].
  unfold number in *.
  destruct a as [z|x], b as [w|y'].
  - simpl in Ha; subst z. exists (PyInt 0). split; reflexivity.
  - cbn [py_mul]. rewrite Hs, Hy; cbv [mbind outcome_bind].
    destruct (fmul_zero_l s y Fy) as [t ->]. eexists; split; reflexivity.
  - cbn [py_mul]. rewrite Hs, Hy; cbv [mbind outcome_bind].
    destruct (fmul_zero_l s y Fy) as [t ->]. eexists; split; reflexivity.
  - cbn [py_mul]. rewrite Hs, Hy; cbv [mbind outcome_bind].
    destruct (fmul_zero_l s y Fy) as [t ->]. eexists; split; reflexivity.
Qed.

Lemma mul_zero_r a b :
  is_finite_number a -> zero b -> exists p, py_mul a b = Return p /\ zero p.
Proof.
  intros (x & Hx & Fx) Hb. destruct (zero_number b Hb) as [s Hs].
  unfold number in *.
  destruct a as [z|x'], b as [w|y].
  - simpl in Hb; subst w. exists (PyInt 0). simpl. rewrite Z.mul_0_r.
    split; reflexivity.
  - cbn [py_mul]. rewrite Hx, Hs; cbv [mbind outcome_bind].
    destruct (fmul_zero_r x s Fx) as [t ->]. eexists; split; reflexivity.
  - cbn [py_mul]. rewrite Hx, Hs; cbv [mbind outcome_bind].
    destruct (fmul_zero_r x s Fx) as [t ->]. eexists; split; reflexivity.
  - cbn [py_mul]. rewrite Hx, Hs; cbv [mbind outcome_bind].
    destruct (fmul_zero_r x s Fx) as [t ->]. eexists; split; reflexivity.
Qed.

Lemma pow2_zero libm_pow v :
  zero v -> exists p, py_pow2 libm_pow v = Return p /\ zero p.
Proof.
  destruct v as [z|x]; simpl.
  - intros ->. exists (PyInt 0). split; reflexivity.
  - intros H; apply is_zero_inv in H as [s ->]. exists (PyFloat pzero).
    split; reflexivity.
Qed.

Lemma sqrt_zero v :
  zero v -> exists s, math_sqrt v = Return (PyFloat (S754_zero s)).
Proof.
  intros H. destruct (zero_number v H) as [s Hs]. unfold math_sqrt.
  rewrite Hs. simpl. now exists s.
Qed.

(** The root of a number below zero. *)
Lemma sqrt_negative v : negative v -> math_sqrt v = Raise ValueError.
Proof.
  intros (x & Hx & Hn). unfold math_sqrt. rewrite Hx. simpl.
  apply is_neg_inv in Hn as [->|(m & e & ->)]; reflexivity.
Qed.

(** The root of a double that is not below zero. *)
Lemma sqrt_signed q :
  signed false q ->
  math_sqrt (PyFloat q) = Return (PyFloat (fsqrt q)) /\ signed false (fsqrt q).
Proof.
  intros [| |m e].
  - split; [reflexivity|constructor].
  - split; [reflexivity|constructor].
  - unfold math_sqrt; cbv [to_double mbind outcome_bind].
    pose proof (fsqrt_signed m e) as H.
    remember (fsqrt (S754_finite false m e)) as r eqn:E; clear E.
    destruct H; (split; [reflexivity|constructor]).
Qed.

(** The quotient of two positive finite numbers. *)
Lemma truediv_positive a b x y :
  number a x -> positive_finite x -> number b y -> positive_finite y ->
  (d ← py_float b; py_truediv a d) = Return (PyFloat (fdiv x y))
  /\ signed false (fdiv x y).
Proof.
  intros Ha Px Hb Py.
  apply positive_finite_inv in Px as (mx & ex & ->).
  apply positive_finite_inv in Py as (my & ey & ->).
  rewrite (py_float_number _ _ Hb). simpl. unfold number in Ha.
  split; [|apply (fdiv_signed false mx ex false my ey)].
  destruct a as [z|x]; simpl in *.
  - rewrite Ha. reflexivity.
  - injection Ha as ->. reflexivity.
Qed.

(** [a / float(b)] is [a / b] when the operands are doubles already. *)
Lemma truediv_float a b :
  double_operands a b -> (d ← py_float b; py_truediv a d) = py_truediv a b.
Proof.
  destruct a as [x|x], b as [y|y]; intros H; try reflexivity.
  - destruct H as [Hx Hy]. unfold py_float.
    rewrite (to_double_small y Hy). cbv [mbind outcome_bind py_truediv].
    rewrite (to_double_small x Hx). cbv [to_double].
    unfold long_true_divide, float_div.
    destruct (Z.eqb_spec y 0) as [->|Ny]; [reflexivity|].
    destruct (of_Z_small y Ny Hy) as (m & e & Ey). rewrite Ey.
    rewrite is_zero_finite.
    destruct (Z.eqb_spec x 0) as [->|Nx].
    + now destruct (y <? 0).
    + rewrite Hx, Hy. reflexivity.
  - unfold py_float, py_truediv, to_double.
    destruct (is_inf (of_Z y)); reflexivity.
Qed.

End Operations.

(** ** Boundaries: zero denominators and negative roots *)

Tactic Notation "obind" := cbv [mbind outcome_bind].
Tactic Notation "obind" "in" hyp(H) := cbv [mbind outcome_bind] in H.

Lemma sqrt_returns_float v s : math_sqrt v = Return s -> is_number s.
Proof.
  unfold math_sqrt. destruct (to_double v) as [x|]; [|discriminate]. obind.
  destruct (_ && _); [discriminate|]. intros [= <-]. now exists (fsqrt x).
Qed.

Section BoundaryErrors.

Variable libm_pow : float -> float -> float * errno.

(** C5. In every function of the library, a zero passed for a parameter
    of the denominator raises the division by zero: the call ends in
    [ZeroDivisionError] and returns no value. *)
Theorem C5_zero_denominator_raises_ZeroDivisionError c g :
  zero_denominator libm_pow c ->
  fst (call libm_pow c g) = Raise ZeroDivisionError.
Proof.
  intros H; destruct H; cbv [call callee arguments precision].
  - (* torque_constant *)
    rewrite torque_constant_run; cbn [fst].
    destruct (py_float_zero w_0 H) as [s ->]; obind.
    now rewrite truediv_float_zero.
  - (* electrical_constant *)
    rewrite electrical_constant_run; cbn [fst].
    now apply float_truediv_zero.
  - (* speed_constant *)
    rewrite speed_constant_run; cbn [fst].
    now apply float_truediv_zero.
  - (* motor_constant, w_0 *)
    rewrite motor_constant_run; cbn [fst].
    destruct (py_float_zero w_0 H) as [t ->]; obind. rewrite H0.
    destruct (mul_zero_l (PyFloat (S754_zero t)) s) as (p & -> & Hp);
      [reflexivity|assumption|].
    now rewrite truediv_zero.
  - (* motor_constant, R *)
    rewrite motor_constant_run; cbn [fst].
    destruct H0 as (x & Hx & Fx). rewrite (py_float_number _ _ Hx); obind.
    destruct (sqrt_zero R H) as [t ->].
    destruct (mul_zero_r (PyFloat x) (PyFloat (S754_zero t))) as (p & -> & Hp);
      [now exists x|reflexivity|].
    now rewrite truediv_zero.
  - (* max_continuous_current *)
    rewrite max_continuous_current_run; cbn [fst].
    destruct (py_float_zero R H) as [s ->]; obind.
    now rewrite truediv_float_zero.
  - (* max_continuous_torque *)
    rewrite max_continuous_torque_run; cbn [fst].
    now rewrite truediv_zero.
  - (* short_circuit_damping, w_0 *)
    rewrite short_circuit_damping_run; cbn [fst]. rewrite H1; obind.
    destruct (pow2_zero libm_pow w_0 H) as (w2 & -> & Hw2).
    destruct (mul_zero_l w2 R Hw2 H0) as (p & -> & Hp).
    destruct (py_float_zero p Hp) as [s ->].
    now rewrite truediv_float_zero.
  - (* short_circuit_damping, R *)
    rewrite short_circuit_damping_run; cbn [fst]. rewrite H2, H0; obind.
    destruct (mul_zero_r w2 R H1 H) as (p & -> & Hp).
    destruct (py_float_zero p Hp) as [s ->].
    now rewrite truediv_float_zero.
  - (* electrical_time_constant *)
    rewrite electrical_time_constant_run; cbn [fst].
    destruct (py_float_zero R H) as [s ->]; obind.
    now rewrite truediv_float_zero.
  - (* mechanical_time_constant *)
    rewrite mechanical_time_constant_run; cbn [fst].
    destruct (py_mul J R) as [jr|]; [|discriminate].
    destruct (py_pow2 libm_pow w_0) as [w2|]; [|discriminate].
    obind. obind in H0. rewrite H0.
    destruct (pow2_zero libm_pow V_nom H) as (v2 & -> & Hv2).
    destruct (py_float_zero v2 Hv2) as [s ->].
    now rewrite truediv_float_zero.
  - (* stall_current *)
    rewrite stall_current_run; cbn [fst].
    destruct (py_float_zero R H) as [s ->]; obind.
    now rewrite truediv_float_zero.
  - (* stall_torque, R *)
    rewrite stall_torque_run; cbn [fst]. rewrite H1; obind.
    destruct (mul_zero_l R w_0 H H0) as (p & -> & Hp).
    destruct (py_float_zero p Hp) as [s ->].
    now rewrite truediv_float_zero.
  - (* stall_torque, w_0 *)
    rewrite stall_torque_run; cbn [fst]. rewrite H1; obind.
    destruct (mul_zero_r R w_0 H0 H) as (p & -> & Hp).
    destruct (py_float_zero p Hp) as [s ->].
    now rewrite truediv_float_zero.
  - (* max_mechanical_power *)
    rewrite max_mechanical_power_run; cbn [fst]. rewrite H0; obind.
    destruct (mul_zero_r (PyInt 4) R) as (p & -> & Hp);
      [now exists (of_Z 4)|assumption|].
    destruct (py_float_zero p Hp) as [s ->].
    now rewrite truediv_float_zero.
  - (* max_efficiency *)
    rewrite max_efficiency_run; cbn [fst].
    destruct (py_mul I_0 R) as [p|]; [|discriminate]. obind. obind in H0.
    rewrite H0. apply sqrt_returns_float in H0.
    destruct (py_float_zero V_nom H) as [t ->].
    now rewrite truediv_float_zero.
Qed.

(** C6. In [max_continuous_current], [motor_constant] and
    [max_efficiency], a square root taken of a negative number raises the
    domain error: the call ends in [ValueError]. *)
Theorem C6_negative_sqrt_argument_raises_ValueError c g :
  negative_sqrt_argument c ->
  fst (call libm_pow c g) = Raise ValueError.
Proof.
  intros H; destruct H; cbv [call callee arguments precision].
  - rewrite max_continuous_current_run; cbn [fst].
    destruct (py_float R) as [d|]; [|discriminate]. obind. obind in H.
    rewrite H. now apply sqrt_negative.
  - rewrite motor_constant_run; cbn [fst].
    destruct H as [x Hx]. rewrite (py_float_number _ _ Hx); obind.
    now rewrite sqrt_negative.
  - rewrite max_efficiency_run; cbn [fst]. rewrite H; obind.
    now rewrite sqrt_negative.
Qed.

End BoundaryErrors.

(** ** The formulas *)

(** C1, amended. A call of [max_continuous_torque] never returns a value.
    It fails with the error of [P/R] or of its square root when one of them
    fails, and with the name-resolution error on [w_0] in every other case:
    so for positive finite [P] and [R] that are doubles, while a zero [R] is
    the division by zero and a negative quotient the domain error. *)
Theorem C1_max_continuous_torque_never_returns P R V_nom dec :
  fst (max_continuous_torque P R V_nom dec motors_globals)
  = match q ← py_truediv P R; math_sqrt q with
    | Return _ => Raise NameError
    | Raise e => Raise e
    end
  /\ (exists e, fst (max_continuous_torque P R V_nom dec motors_globals) = Raise e)
  /\ (forall p r, number P p -> positive_finite p ->
                  number R r -> positive_finite r -> double_operands P R ->
         fst (max_continuous_torque P R V_nom dec motors_globals) = Raise NameError)
  /\ (is_number P -> zero R ->
      fst (max_continuous_torque P R V_nom dec motors_globals)
      = Raise ZeroDivisionError)
  /\ (forall q, py_truediv P R = Return q -> negative q ->
         fst (max_continuous_torque P R V_nom dec motors_globals)
         = Raise ValueError).
Proof.
  assert (fst (max_continuous_torque P R V_nom dec motors_globals)
          = match q ← py_truediv P R; math_sqrt q with
            | Return _ => Raise NameError
            | Raise e => Raise e
            end) as E.
  { rewrite max_continuous_torque_run; cbn [fst].
    rewrite w_0_not_global. obind.
    destruct (py_truediv P R) as [q|]; [|reflexivity].
    destruct (math_sqrt q); reflexivity. }
  split; [exact E|]. rewrite E. split; [|split; [|split]].
  - destruct (q ← py_truediv P R; math_sqrt q); eauto.
  - intros p r HP Pp HR Pr Hd.
    destruct (truediv_positive P R p r HP Pp HR Pr) as [Hq Sq].
    rewrite (truediv_float P R Hd) in Hq. rewrite Hq; obind.
    destruct (sqrt_signed _ Sq) as [-> _]. reflexivity.
  - intros HP HR. now rewrite truediv_zero.
  - intros q -> Hq; obind. now rewrite sqrt_negative.
Qed.

(** C9. For positive finite [P] and [R], [max_continuous_current] returns
    the double square root of the double quotient [P/R], with no rounding to
    [dec] places: the result is the same for every [dec]. *)
Theorem C9_max_continuous_current_unrounded P R dec g p r :
  number P p -> positive_finite p -> number R r -> positive_finite r ->
  fst (max_continuous_current P R dec g) = Return (PyFloat (fsqrt (fdiv p r)))
  /\ forall dec', max_continuous_current P R dec' g
                  = max_continuous_current P R dec g.
Proof.
  intros HP Pp HR Pr. split.
  - rewrite max_continuous_current_run; cbn [fst].
    destruct (truediv_positive P R p r HP Pp HR Pr) as [Hq Sq].
    destruct (py_float R) as [d|]; [|discriminate]. obind. obind in Hq.
    rewrite Hq. now destruct (sqrt_signed _ Sq) as [-> _].
  - intros dec'. now rewrite !max_continuous_current_run.
Qed.

(** C3. [electrical_constant] returns the double quotient [V_nom/w_0] and
    [speed_constant] the double quotient [w_0/V_nom], as Python's own [/]
    gives them; neither result is rounded, so [dec] has no effect. *)
Theorem C3_constants_are_unrounded V_nom w_0 dec g v w :
  number V_nom v -> number w_0 w ->
  (is_zero w = false ->
   fst (electrical_constant V_nom w_0 dec g) = Return (PyFloat (fdiv v w)))
  /\ (is_zero v = false ->
      fst (speed_constant V_nom w_0 dec g) = Return (PyFloat (fdiv w v)))
  /\ (double_operands V_nom w_0 ->
      fst (electrical_constant V_nom w_0 dec g) = py_truediv V_nom w_0
      /\ fst (speed_constant V_nom w_0 dec g) = py_truediv w_0 V_nom)
  /\ (forall dec',
        electrical_constant V_nom w_0 dec' g = electrical_constant V_nom w_0 dec g
        /\ speed_constant V_nom w_0 dec' g = speed_constant V_nom w_0 dec g).
Proof.
  intros HV Hw. unfold number in *.
  assert (forall a b x y, to_double a = Return x -> to_double b = Return y ->
            is_zero y = false ->
            (d ← py_float b; py_truediv a d) = Return (PyFloat (fdiv x y))) as Q.
  { intros a b x y Ha Hb Hz. rewrite (py_float_number b y Hb); obind.
    destruct a as [z|x']; cbn [py_truediv]; rewrite Ha; obind;
      unfold float_div; cbn [to_double]; now rewrite Hz. }
  split; [|split; [|split]].
  - intros Hz. rewrite electrical_constant_run; cbn [fst]. now apply Q.
  - intros Hz. rewrite speed_constant_run; cbn [fst]. now apply Q.
  - intros Hd. rewrite electrical_constant_run, speed_constant_run; cbn [fst].
    split; apply truediv_float; [assumption|].
    destruct V_nom, w_0; cbn in Hd |- *; try exact I.
    destruct Hd; split; assumption.
  - intros dec'. now rewrite !electrical_constant_run, !speed_constant_run.
Qed.

(** C10. [torque_constant] is [electrical_constant] followed by the rounding
    to [dec] places, whatever precision the inner call is given; on positive
    finite arguments the inner call returns the double quotient that is
    rounded. *)
Theorem C10_torque_constant_rounds_electrical_constant V_nom w_0 dec dec' g :
  fst (torque_constant V_nom w_0 dec g)
  = (k ← fst (electrical_constant V_nom w_0 dec' g); py_round k dec)
  /\ (forall v w, number V_nom v -> positive_finite v ->
                  number w_0 w -> positive_finite w ->
        fst (electrical_constant V_nom w_0 dec' g) = Return (PyFloat (fdiv v w))
        /\ fst (torque_constant V_nom w_0 dec g) = py_round (PyFloat (fdiv v w)) dec).
Proof.
  rewrite torque_constant_run, electrical_constant_run; cbn [fst]. split.
  - destruct (py_float w_0) as [d|]; [|reflexivity]. obind.
    destruct (py_truediv V_nom d); reflexivity.
  - intros v w HV Pv Hw Pw.
    destruct (truediv_positive V_nom w_0 v w HV Pv Hw Pw) as [Hq _].
    destruct (py_float w_0) as [d|]; [|discriminate]. obind. obind in Hq.
    now rewrite Hq.
Qed.

(** C4. For positive finite [V_nom] and [w_0], [torque_constant] is the
    double quotient [V_nom/w_0] rounded to [dec] places; on operands that
    are doubles this is Python's [round(V_nom/w_0, dec)]; and
    [torque_constant(24, 754, dec=3)] is [round(24/754, 3)], the double
    0.032 (the one nearest to 32/1000). *)
Theorem C4_torque_constant_is_rounded_quotient :
  (forall V_nom w_0 dec g v w,
     number V_nom v -> positive_finite v -> number w_0 w -> positive_finite w ->
     fst (torque_constant V_nom w_0 dec g) = py_round (PyFloat (fdiv v w)) dec)
  /\ (forall V_nom w_0 dec g, double_operands V_nom w_0 ->
        fst (torque_constant V_nom w_0 dec g) = spec_torque_constant V_nom w_0 dec)
  /\ fst (torque_constant (PyInt 24) (PyInt 754) 3 motors_globals)
     = spec_torque_constant (PyInt 24) (PyInt 754) 3
  /\ spec_torque_constant (PyInt 24) (PyInt 754) 3
     = Return (PyFloat (div_Z 32 1000)).
Proof.
  assert (forall V_nom w_0 dec g, double_operands V_nom w_0 ->
     fst (torque_constant V_nom w_0 dec g) = spec_torque_constant V_nom w_0 dec) as G.
  { intros V_nom w_0 dec g Hd. rewrite torque_constant_run; cbn [fst].
    unfold spec_torque_constant. rewrite <- (truediv_float V_nom w_0 Hd).
    destruct (py_float w_0); reflexivity. }
  split; [|split; [exact G|split]].
  - intros V_nom w_0 dec g v w HV Pv Hw Pw.
    rewrite torque_constant_run; cbn [fst].
    destruct (truediv_positive V_nom w_0 v w HV Pv Hw Pw) as [Hq _].
    destruct (py_float w_0) as [d|]; [|discriminate]. obind. obind in Hq.
    now rewrite Hq.
  - apply G. split; reflexivity.
  - vm_compute. reflexivity.
Qed.

Section Formulas.

Variable libm_pow : float -> float -> float * errno.

(** C7. [max_mechanical_power] is the double quotient of [V_nom**2] by
    [4*R], rounded to [dec] places; on operands that are doubles this is
    Python's [round(V_nom**2/(4*R), dec)]; and
    [max_mechanical_power(R=2, V_nom=12)] is 18.0. *)
Theorem C7_max_mechanical_power_is_rounded_quotient :
  (forall R V_nom dec g n d x y,
     py_pow2 libm_pow V_nom = Return n -> number n x ->
     py_mul (PyInt 4) R = Return d -> number d y -> is_zero y = false ->
     fst (max_mechanical_power libm_pow R V_nom dec g)
     = py_round (PyFloat (fdiv x y)) dec)
  /\ (forall R V_nom dec g, power_operands R V_nom ->
        fst (max_mechanical_power libm_pow R V_nom dec g)
        = spec_max_mechanical_power libm_pow R V_nom dec)
  /\ fst (max_mechanical_power libm_pow (PyInt 2) (PyInt 12) default_dec motors_globals)
     = Return (PyFloat (of_Z 18)).
Proof.
  split; [|split].
  - intros R V_nom dec g n d x y Hn Hx Hd Hy Hz.
    rewrite max_mechanical_power_run; cbn [fst]. rewrite Hn, Hd; obind.
    rewrite (py_float_number d y Hy); obind. unfold number in Hx.
    destruct n as [z|x']; cbn [py_truediv]; rewrite Hx; obind;
      unfold float_div; cbn [to_double]; now rewrite Hz.
  - intros R V_nom dec g Hd. rewrite max_mechanical_power_run; cbn [fst].
    unfold spec_max_mechanical_power.
    destruct (py_pow2 libm_pow V_nom) as [n|] eqn:En; [|reflexivity]. obind.
    destruct (py_mul (PyInt 4) R) as [d|] eqn:Ed; [|reflexivity].
    assert (double_operands n d) as Hnd.
    { destruct V_nom as [v|v], R as [r|r]; cbn in En, Ed.
      - injection En as <-. injection Ed as <-. exact Hd.
      - destruct d; [discriminate|]. now destruct n.
      - unfold float_pow2 in En.
        repeat match type of En with
               | (if ?b then _ else _) = _ => destruct b
               | (let '(_, _) := ?p in _) = _ => destruct p
               | match ?e with ENONE => _ | _ => _ end = _ => destruct e
               end; try discriminate; now injection En as <-.
      - destruct d; [discriminate|]. now destruct n. }
    rewrite <- (truediv_float n d Hnd).
    destruct (py_float d); reflexivity.
  - vm_compute. reflexivity.
Qed.


End Formulas.

(** ** The test vectors of the specification *)

(** [stall_current(R=2, V_nom=12) == 6.0] *)
Example stall_current_2_12 :
  fst (stall_current (PyInt 2) (PyInt 12) default_dec motors_globals)
  = Return (PyFloat (of_Z 6)).
Proof. vm_compute. reflexivity. Qed.

(** [stall_torque(R=2, V_nom=12, w_0=754) == round(144/(2*754), 1)], 0.1 *)
Example stall_torque_2_12_754 :
  fst (stall_torque pow_rn (PyInt 2) (PyInt 12) (PyInt 754) default_dec motors_globals)
  = (q ← py_truediv (PyInt 144) (PyInt (2 * 754)); py_round q 1)
  /\ fst (stall_torque pow_rn (PyInt 2) (PyInt 12) (PyInt 754) default_dec motors_globals)
     = Return (PyFloat (div_Z 1 10)).
Proof. split; vm_compute; reflexivity. Qed.

(** [electrical_time_constant(L=0.001, R=2, dec=4) == 0.0005] *)
Example electrical_time_constant_0001_2 :
  fst (electrical_time_constant (PyFloat (div_Z 1 1000)) (PyInt 2) 4 motors_globals)
  = Return (PyFloat (div_Z 5 10000)).
Proof. vm_compute. reflexivity. Qed.

(** [torque_constant(24, 1000) == round(24/1000, 1) == 0.0] *)
Example torque_constant_24_1000 :
  fst (torque_constant (PyInt 24) (PyInt 1000) default_dec motors_globals)
  = Return (PyFloat pzero).
Proof. vm_compute. reflexivity. Qed.

(** ** Concrete calls *)

Lemma int_is_number z : is_inf (of_Z z) = false -> is_number (PyInt z).
Proof. intros H. exists (of_Z z). unfold number, to_double. now rewrite H. Qed.

Lemma int_is_finite_number z :
  is_finite (of_Z z) = true -> is_finite_number (PyInt z).
Proof.
  intros H. exists (of_Z z). split; [|exact H]. unfold number, to_double.
  destruct (of_Z z); try discriminate; reflexivity.
Qed.

(** Every function of the library has a parameter in a denominator. *)
Lemma zero_denominator_in_every_function (f : func) :
  exists args, zero_denominator pow_rn (Invoke f args default_dec).
Proof.
  destruct f.
  - exists [PyInt 24; PyInt 0]. constructor; [reflexivity|now apply int_is_number].
  - exists [PyInt 24; PyInt 0]. constructor; [reflexivity|now apply int_is_number].
  - exists [PyInt 0; PyInt 754]. constructor; [reflexivity|now apply int_is_number].
  - exists [PyInt 12; PyInt 754; PyInt 0].
    apply zd_motor_constant_R;
      [reflexivity|now apply int_is_finite_number|now apply int_is_number].
  - exists [PyInt 2; PyInt 0]. constructor; [reflexivity|now apply int_is_number].
  - exists [PyInt 2; PyInt 0; PyInt 12].
    constructor; [reflexivity|now apply int_is_number].
  - exists [PyInt 12; PyInt 0; PyInt 2].
    apply zd_short_circuit_damping_w_0 with (n := PyInt 144);
      [reflexivity|now apply int_is_finite_number|reflexivity
      |now apply int_is_number].
  - exists [PyInt 1; PyInt 0]. constructor; [reflexivity|now apply int_is_number].
  - exists [PyInt 1; PyInt 2; PyInt 0; PyInt 754].
    apply zd_mechanical_time_constant with (n := PyInt 1137032);
      [reflexivity|reflexivity|now apply int_is_number].
  - exists [PyInt 0; PyInt 12]. constructor; [reflexivity|now apply int_is_number].
  - exists [PyInt 0; PyInt 12; PyInt 754].
    apply zd_stall_torque_R with (n := PyInt 144);
      [reflexivity|now apply int_is_finite_number|reflexivity
      |now apply int_is_number].
  - exists [PyInt 0; PyInt 12].
    apply zd_max_mechanical_power with (n := PyInt 144);
      [reflexivity|reflexivity|now apply int_is_number].
  - exists [PyInt 1; PyInt 2; PyInt 0].
    apply zd_max_efficiency with (s := PyFloat (fsqrt (of_Z 2)));
      [reflexivity|reflexivity].
Qed.

(** C1, as the specification states it, fails: with [R = 0] the call ends in
    the division by zero, which is raised before [w_0] is looked up. *)
Lemma C1_counterexample_zero_resistance :
  fst (max_continuous_torque (PyInt 1) (PyInt 0) (PyInt 1) default_dec motors_globals)
  = Raise ZeroDivisionError
  /\ ~ (forall P R V_nom dec,
          fst (max_continuous_torque P R V_nom dec motors_globals) = Raise NameError).
Proof.
  split; [reflexivity|].
  intros H. specialize (H (PyInt 1) (PyInt 0) (PyInt 1) default_dec).
  discriminate H.
Qed.

Lemma C1_witness :
  number (PyInt 2) (of_Z 2) /\ positive_finite (of_Z 2)
  /\ number (PyInt 1) (of_Z 1) /\ positive_finite (of_Z 1)
  /\ double_operands (PyInt 2) (PyInt 1)
  /\ fst (max_continuous_torque (PyInt 2) (PyInt 1) (PyInt 12) default_dec motors_globals)
     = Raise NameError.
Proof.
  assert (number (PyInt 2) (of_Z 2)) as H1 by reflexivity.
  assert (positive_finite (of_Z 2)) as H2 by (vm_compute; exact I).
  assert (number (PyInt 1) (of_Z 1)) as H3 by reflexivity.
  assert (positive_finite (of_Z 1)) as H4 by (vm_compute; exact I).
  assert (double_operands (PyInt 2) (PyInt 1)) as H5 by (split; reflexivity).
  repeat (split; [assumption|]).
  exact (proj1 (proj2 (proj2
    (C1_max_continuous_torque_never_returns (PyInt 2) (PyInt 1) (PyInt 12) default_dec)))
    _ _ H1 H2 H3 H4 H5).
Defined.

(** C2. [max_continuous_current(2, 1, dec=1)] returns the double square
    root of 2, 1.4142135623730951, as it is; rounded to one place it would
    be 1.4, the double nearest to 14/10. *)
Theorem C2_max_continuous_current_is_not_rounded :
  fst (max_continuous_current (PyInt 2) (PyInt 1) 1 motors_globals)
  = Return (PyFloat (fsqrt (of_Z 2)))
  /\ fsqrt (of_Z 2) = S754_finite false 6369051672525773 (-52)
  /\ py_round (PyFloat (fsqrt (of_Z 2))) 1 = Return (PyFloat (div_Z 14 10))
  /\ fsqrt (of_Z 2) <> div_Z 14 10.
Proof.
  split; [|split; [|split]]; try (vm_compute; reflexivity).
  vm_compute; discriminate.
Qed.

Lemma C3_witness :
  number (PyInt 24) (of_Z 24) /\ number (PyInt 754) (of_Z 754)
  /\ is_zero (of_Z 754) = false
  /\ fst (electrical_constant (PyInt 24) (PyInt 754) 3 motors_globals)
     = Return (PyFloat (fdiv (of_Z 24) (of_Z 754)))
  /\ fdiv (of_Z 24) (of_Z 754) = S754_finite false 4587220840610797 (-57).
Proof.
  assert (number (PyInt 24) (of_Z 24)) as H1 by reflexivity.
  assert (number (PyInt 754) (of_Z 754)) as H2 by reflexivity.
  assert (is_zero (of_Z 754) = false) as H3 by reflexivity.
  repeat (split; [assumption|]).
  split; [|vm_compute; reflexivity].
  exact (proj1 (C3_constants_are_unrounded (PyInt 24) (PyInt 754) 3 motors_globals
                  _ _ H1 H2) H3).
Defined.

Lemma C4_witness :
  double_operands (PyInt 24) (PyInt 754)
  /\ fst (torque_constant (PyInt 24) (PyInt 754) 3 motors_globals)
     = spec_torque_constant (PyInt 24) (PyInt 754) 3.
Proof.
  assert (double_operands (PyInt 24) (PyInt 754)) as H by (split; reflexivity).
  split; [assumption|].
  exact (proj1 (proj2 C4_torque_constant_is_rounded_quotient) _ _ 3 motors_globals H).
Defined.

Lemma C5_witness :
  zero_denominator pow_rn (Invoke StallTorque [PyInt 2; PyInt 12; PyFloat (S754_zero true)] 1)
  /\ fst (call pow_rn (Invoke StallTorque [PyInt 2; PyInt 12; PyFloat (S754_zero true)] 1)
            motors_globals) = Raise ZeroDivisionError.
Proof.
  assert (zero_denominator pow_rn
            (Invoke StallTorque [PyInt 2; PyInt 12; PyFloat (S754_zero true)] 1)) as H.
  { apply zd_stall_torque_w_0 with (n := PyInt 144).
    - reflexivity.
    - exists (of_Z 2). split; reflexivity.
    - reflexivity.
    - exists (of_Z 144). reflexivity. }
  split; [assumption|].
  exact (C5_zero_denominator_raises_ZeroDivisionError pow_rn _ motors_globals H).
Defined.

Lemma C6_witness :
  negative_sqrt_argument (Invoke MaxEfficiency [PyInt (-1); PyInt 2; PyInt 12] 1)
  /\ fst (call pow_rn (Invoke MaxEfficiency [PyInt (-1); PyInt 2; PyInt 12] 1)
            motors_globals) = Raise ValueError.
Proof.
  assert (negative_sqrt_argument
            (Invoke MaxEfficiency [PyInt (-1); PyInt 2; PyInt 12] 1)) as H.
  { apply ns_max_efficiency with (p := PyInt (-2)).
    - reflexivity.
    - exists (of_Z (-2)). split; reflexivity. }
  split; [assumption|].
  exact (C6_negative_sqrt_argument_raises_ValueError pow_rn _ motors_globals H).
Defined.

Lemma C7_witness :
  power_operands (PyInt 2) (PyInt 12)
  /\ fst (max_mechanical_power pow_rn (PyInt 2) (PyInt 12) default_dec motors_globals)
     = spec_max_mechanical_power pow_rn (PyInt 2) (PyInt 12) default_dec.
Proof.
  assert (power_operands (PyInt 2) (PyInt 12)) as H by (split; reflexivity).
  split; [assumption|].
  exact (proj1 (proj2 (C7_max_mechanical_power_is_rounded_quotient pow_rn))
           _ _ default_dec motors_globals H).
Defined.


Lemma C9_witness :
  number (PyInt 2) (of_Z 2) /\ positive_finite (of_Z 2)
  /\ number (PyInt 1) (of_Z 1) /\ positive_finite (of_Z 1)
  /\ fst (max_continuous_current (PyInt 2) (PyInt 1) 5 motors_globals)
     = Return (PyFloat (fsqrt (fdiv (of_Z 2) (of_Z 1)))).
Proof.
  assert (number (PyInt 2) (of_Z 2)) as H1 by reflexivity.
  assert (positive_finite (of_Z 2)) as H2 by (vm_compute; exact I).
  assert (number (PyInt 1) (of_Z 1)) as H3 by reflexivity.
  assert (positive_finite (of_Z 1)) as H4 by (vm_compute; exact I).
  repeat (split; [assumption|]).
  exact (proj1 (C9_max_continuous_current_unrounded (PyInt 2) (PyInt 1) 5
                  motors_globals _ _ H1 H2 H3 H4)).
Defined.

Lemma C10_witness :
  number (PyInt 24) (of_Z 24) /\ positive_finite (of_Z 24)
  /\ number (PyInt 754) (of_Z 754) /\ positive_finite (of_Z 754)
  /\ fst (electrical_constant (PyInt 24) (PyInt 754) 1 motors_globals)
     = Return (PyFloat (fdiv (of_Z 24) (of_Z 754)))
  /\ fst (torque_constant (PyInt 24) (PyInt 754) 3 motors_globals)
     = py_round (PyFloat (fdiv (of_Z 24) (of_Z 754))) 3.
Proof.
  assert (number (PyInt 24) (of_Z 24)) as H1 by reflexivity.
  assert (positive_finite (of_Z 24)) as H2 by (vm_compute; exact I).
  assert (number (PyInt 754) (of_Z 754)) as H3 by reflexivity.
  assert (positive_finite (of_Z 754)) as H4 by (vm_compute; exact I).
  repeat (split; [assumption|]).
  exact (proj2 (C10_torque_constant_rounds_electrical_constant
                  (PyInt 24) (PyInt 754) 3 1 motors_globals) _ _ H1 H2 H3 H4).
Defined.

(** * Further properties of the library *)

(** ** Integers never convert to a zero *)

Section Magnitude.

Lemma shr_1_m mrs : 0 <= shr_m mrs -> shr_m (shr_1 mrs) = Z.shiftr (shr_m mrs) 1.
Proof.
  destruct mrs as [m r s]; simpl. destruct m as [|[p|p|]|p]; try lia; reflexivity.
Qed.

Lemma iter_shr_1_m n : forall mrs,
  0 <= shr_m mrs ->
  shr_m (SpecFloat.iter_pos shr_1 n mrs) = Z.shiftr (shr_m mrs) (Z.pos n).
Proof.
  induction n as [n IH|n IH|]; intros mrs H; simpl SpecFloat.iter_pos.
  - assert (0 <= shr_m (shr_1 mrs)) as H1 by now apply shr_1_nonneg.
    assert (0 <= shr_m (SpecFloat.iter_pos shr_1 n (shr_1 mrs))) as H2
      by (rewrite IH by assumption; now apply Z.shiftr_nonneg).
    rewrite IH, IH, shr_1_m by assumption.
    rewrite !Z.shiftr_shiftr by lia. f_equal. lia.
  - assert (0 <= shr_m (SpecFloat.iter_pos shr_1 n mrs)) as H2
      by (rewrite IH by assumption; now apply Z.shiftr_nonneg).
    rewrite IH, IH by assumption.
    rewrite !Z.shiftr_shiftr by lia. f_equal. lia.
  - now apply shr_1_m.
Qed.

Lemma shr_m_shift m e l n :
  0 <= m -> 0 < n ->
  shr_m (fst (shr (shr_record_of_loc m l) e n)) = Z.shiftr m n.
Proof.
  intros Hm Hn. destruct n as [|k|k]; try lia. simpl.
  rewrite iter_shr_1_m; now rewrite shr_record_of_loc_m.
Qed.

Lemma round_nearest_even_bounds m l :
  m <= round_nearest_even m l <= m + 1.
Proof. destruct l as [|[]]; simpl; try lia. destruct (Z.even m); lia. Qed.

Lemma Zdigits2_le m n : 0 < m -> 0 <= n -> m <= 2 ^ n -> Zdigits2 m <= n + 1.
Proof.
  intros Hm Hn Hb. destruct m as [|p|p]; try lia. simpl.
  pose proof (digits2_pos_bound p) as [L _].
  destruct (Z.le_gt_cases (Z.pos (digits2_pos p)) (n + 1)) as [|G]; [assumption|].
  assert (2 ^ (n + 1) <= 2 ^ (Z.pos (digits2_pos p) - 1))
    by (apply Z.pow_le_mono_r; lia).
  rewrite Z.pow_add_r in H by lia. lia.
Qed.

(** A large integer, rounded to 53 bits, keeps a positive mantissa. *)
Lemma binary_round_aux_large s p :
  2 ^ 53 <= Z.pos p ->
  signed s (binary_round_aux prec emax s (Z.pos p) 0 loc_Exact)
  /\ is_zero (binary_round_aux prec emax s (Z.pos p) 0 loc_Exact) = false.
Proof.
  intros Hp. split; [apply binary_round_aux_signed; lia|].
  pose proof (digits2_pos_bound p) as [L U].
  set (d := Z.pos (digits2_pos p)) in *.
  assert (54 <= d) as Hd.
  { destruct (Z.le_gt_cases 54 d); [assumption|].
    assert (2 ^ d <= 2 ^ 53) by (apply Z.pow_le_mono_r; lia). lia. }
  unfold binary_round_aux.
  destruct (shr_fexp prec emax (Z.pos p) 0 loc_Exact) as [mrs' e'] eqn:E1.
  assert (shr_m mrs' = Z.shiftr (Z.pos p) (d - 53) /\ e' = d - 53) as [M1 ->].
  { unfold shr_fexp in E1. simpl Zdigits2 in E1. fold d in E1.
    replace (fexp prec emax (d + 0) - 0) with (d - 53) in E1
      by (unfold fexp, emin, prec, emax; lia).
    split.
    - rewrite <- (shr_m_shift (Z.pos p) 0 loc_Exact (d - 53)) by lia.
      now rewrite E1.
    - unfold shr in E1. destruct (d - 53) eqn:Ed; try lia.
      now injection E1 as _ <-. }
  assert (2 ^ 52 <= shr_m mrs' < 2 ^ 53) as B1.
  { rewrite M1, Z.shiftr_div_pow2 by lia.
    assert (0 < 2 ^ (d - 53)) as Hq by (apply Z.pow_pos_nonneg; lia).
    assert (2 ^ (d - 1) = 2 ^ 52 * 2 ^ (d - 53)) as E52
      by (rewrite <- Z.pow_add_r by lia; f_equal; lia).
    assert (2 ^ d = 2 ^ 53 * 2 ^ (d - 53)) as E53
      by (rewrite <- Z.pow_add_r by lia; f_equal; lia).
    split.
    - apply Z.div_le_lower_bound; lia.
    - apply Z.div_lt_upper_bound; lia. }
  set (m2 := round_nearest_even (shr_m mrs') (loc_of_shr_record mrs')).
  pose proof (round_nearest_even_bounds (shr_m mrs') (loc_of_shr_record mrs')) as B2.
  fold m2 in B2.
  destruct (shr_fexp prec emax m2 (d - 53) loc_Exact) as [mrs'' e''] eqn:E2.
  assert (0 < shr_m mrs'') as M2.
  { unfold shr_fexp in E2.
    assert (Zdigits2 m2 <= 54) as D2 by (apply (Zdigits2_le m2 53); lia).
    set (n := fexp prec emax (Zdigits2 m2 + (d - 53)) - (d - 53)) in E2.
    assert (n <= 1) as Hn by (unfold n, fexp, emin, prec, emax; lia).
    destruct (Z.le_gt_cases n 0) as [N0|N1].
    - unfold shr in E2. destruct n; try lia; injection E2 as <- _;
        simpl; lia.
    - assert (n = 1) as -> by lia.
      replace (shr_m mrs'') with
        (shr_m (fst (shr (shr_record_of_loc m2 loc_Exact) (d - 53) 1)))
        by now rewrite E2.
      rewrite shr_m_shift by lia.
      rewrite Z.shiftr_div_pow2 by lia. change (2 ^ 1) with 2.
      apply Z.div_str_pos. lia. }
  destruct (shr_m mrs''); try lia.
  now destruct (e'' <=? emax - prec), s.
Qed.

(** A nonzero int converts to a double that is not a zero and has its
    sign. *)
Lemma of_Z_not_zero z :
  z <> 0 -> signed (z <? 0) (of_Z z) /\ is_zero (of_Z z) = false.
Proof.
  intros Hz. destruct (is_small z) eqn:Hs.
  - destruct (of_Z_small z Hz Hs) as (m & e & ->). split; [constructor|].
    apply is_zero_finite.
  - unfold is_small in Hs. apply Z.ltb_ge in Hs.
    assert (forall s p, 2 ^ 53 <= Z.pos p ->
              binary_round prec emax s p 0
              = binary_round_aux prec emax s (Z.pos p) 0 loc_Exact) as R.
    { intros s p Hp. unfold binary_round, shl_align.
      pose proof (digits2_pos_bound p) as [L U].
      assert (54 <= Z.pos (digits2_pos p)) as Hd.
      { destruct (Z.le_gt_cases 54 (Z.pos (digits2_pos p))); [assumption|].
        assert (2 ^ Z.pos (digits2_pos p) <= 2 ^ 53)
          by (apply Z.pow_le_mono_r; lia). lia. }
      replace (fexp prec emax (Z.pos (digits2_pos p) + 0))
        with (Z.pos (digits2_pos p) - 53)
        by (unfold fexp, emin, prec, emax; lia).
      destruct (Z.pos (digits2_pos p) - 53 - 0) eqn:E; try lia; reflexivity. }
    destruct z as [|p|p]; [congruence| |]; simpl in Hs;
      unfold of_Z, binary_normalize; rewrite R by lia;
      now apply binary_round_aux_large.
Qed.

End Magnitude.

(** ** What the operations return and raise *)

Section Results.

Lemma bind_returns {A B} (o : outcome A) (k : A -> outcome B) v :
  o ≫= k = Return v -> exists a, o = Return a /\ k a = Return v.
Proof. destruct o as [a|e]; [eauto|discriminate]. Qed.

Lemma bind_raises {A B} (o : outcome A) (k : A -> outcome B) e :
  o ≫= k = Raise e -> o = Raise e \/ exists a, o = Return a /\ k a = Raise e.
Proof. destruct o as [a|e']; [eauto|]. intros [= ->]. now left. Qed.

Lemma to_double_raises v e : to_double v = Raise e -> e = OverflowError.
Proof.
  destruct v as [z|x]; simpl; [|discriminate].
  destruct (is_inf (of_Z z)); congruence.
Qed.

Lemma py_float_returns v d :
  py_float v = Return d -> exists x, d = PyFloat x /\ number v x.
Proof.
  unfold py_float. intros H. apply bind_returns in H as (x & Hx & [= <-]).
  now exists x.
Qed.

Lemma py_float_raises v e : py_float v = Raise e -> e = OverflowError.
Proof.
  unfold py_float. intros H.
  apply bind_raises in H as [H|(x & _ & H)]; [|discriminate].
  now apply to_double_raises in H.
Qed.

Lemma float_div_returns a b q :
  float_div a b = Return q -> is_zero b = false /\ q = PyFloat (fdiv a b).
Proof. unfold float_div. destruct (is_zero b); [discriminate|]. now intros [= <-]. Qed.

Lemma truediv_returns a b q : py_truediv a b = Return q -> exists x, q = PyFloat x.
Proof.
  assert (forall x y, float_div x y = Return q -> exists z, q = PyFloat z) as F.
  { intros x y H. apply float_div_returns in H as [_ ->]. eauto. }
  destruct a as [x|x], b as [y|y]; cbn [py_truediv]; intros H.
  - unfold long_true_divide in H.
    repeat match type of H with
           | (if ?c then _ else _) = _ => destruct c
           | (let x := _ in _) = _ => cbv zeta in H
           end; try discriminate; injection H as <-; eauto.
  - apply bind_returns in H as (u & _ & H). apply bind_returns in H as (w & _ & H). eauto.
  - apply bind_returns in H as (u & _ & H). apply bind_returns in H as (w & _ & H). eauto.
  - apply bind_returns in H as (u & _ & H). apply bind_returns in H as (w & _ & H). eauto.
Qed.

Lemma truediv_raises a b e :
  py_truediv a b = Raise e -> e = ZeroDivisionError \/ e = OverflowError.
Proof.
  assert (forall x y, float_div x y = Raise e -> e = ZeroDivisionError) as F.
  { intros x y. unfold float_div. destruct (is_zero y); congruence. }
  assert (forall u v, (x ← to_double u; y ← to_double v; float_div x y) = Raise e ->
            e = ZeroDivisionError \/ e = OverflowError) as G.
  { intros u v H. apply bind_raises in H as [H|(x & _ & H)].
    - right. now apply to_double_raises in H.
    - apply bind_raises in H as [H|(y & _ & H)].
      + right. now apply to_double_raises in H.
      + left. now apply F in H. }
  destruct a as [x|x], b as [y|y]; cbn [py_truediv]; intros H; try now apply G in H.
  unfold long_true_divide in H.
  repeat match type of H with
         | (if ?c then _ else _) = _ => destruct c
         | (let x := _ in _) = _ => cbv zeta in H
         end; try discriminate; injection H as <-; auto.
Qed.

(** Dividing a number by a float raises the division by zero exactly when
    the float is a zero. *)
Lemma truediv_float_raises_zero a d :
  is_number a ->
  (py_truediv a (PyFloat d) = Raise ZeroDivisionError <-> is_zero d = true).
Proof.
  intros [x Hx]. unfold number in Hx.
  assert (py_truediv a (PyFloat d) = float_div x d) as ->.
  { destruct a as [z|y]; cbn [py_truediv]; rewrite Hx; reflexivity. }
  unfold float_div. destruct (is_zero d); split; congruence.
Qed.

Lemma number_zero v x : number v x -> (is_zero x = true <-> zero v).
Proof.
  unfold number. destruct v as [z|y]; simpl.
  - destruct (is_inf (of_Z z)) eqn:I; [discriminate|]. intros [= <-]. split.
    + intros Hz. destruct (Z.eq_dec z 0) as [|N]; [assumption|].
      destruct (of_Z_not_zero z N) as [_ H]. congruence.
    + now intros ->.
  - intros [= ->]. reflexivity.
Qed.

Lemma mul_returns_float_r a x p :
  py_mul a (PyFloat x) = Return p -> exists y, p = PyFloat y.
Proof.
  destruct a as [z|u]; cbn [py_mul]; intros H;
    apply bind_returns in H as (u' & _ & H);
    apply bind_returns in H as (w & _ & [= <-]); eauto.
Qed.

Lemma mul_raises a b e : py_mul a b = Raise e -> e = OverflowError.
Proof.
  assert (forall u v, (x ← to_double u; y ← to_double v; Return (PyFloat (fmul x y)))
                      = Raise e -> e = OverflowError) as G.
  { intros u v H. apply bind_raises in H as [H|(x & _ & H)];
      [now apply to_double_raises in H|].
    apply bind_raises in H as [H|(y & _ & H)];
      [now apply to_double_raises in H|discriminate]. }
  destruct a as [x|x], b as [y|y]; cbn [py_mul]; intros H;
    try (now apply G in H). discriminate.
Qed.

Lemma sqrt_returns v s : math_sqrt v = Return s -> exists x, s = PyFloat x.
Proof.
  unfold math_sqrt. intros H. apply bind_returns in H as (x & _ & H).
  destruct (_ && _); [discriminate|]. injection H as <-. eauto.
Qed.

Lemma sqrt_raises v e :
  math_sqrt v = Raise e -> e = ValueError \/ e = OverflowError.
Proof.
  unfold math_sqrt. intros H. apply bind_raises in H as [H|(x & _ & H)].
  - right. now apply to_double_raises in H.
  - destruct (_ && _); [|discriminate]. injection H as <-. now left.
Qed.

Lemma double_round_returns x dec v :
  double_round x dec = Return v -> exists y, v = PyFloat y.
Proof.
  destruct x as [s|s| |s m e]; simpl; try (intros [= <-]; eauto).
  match goal with |- (if ?c then _ else _) = _ -> _ => destruct c end;
    [discriminate|]. intros [= <-]. eauto.
Qed.

Lemma double_round_raises x dec e :
  double_round x dec = Raise e -> e = OverflowError.
Proof.
  destruct x as [s|s| |s m e']; simpl; try discriminate.
  match goal with |- (if ?c then _ else _) = _ -> _ => destruct c end;
    congruence.
Qed.

Lemma round_returns x dec v :
  py_round (PyFloat x) dec = Return v -> exists y, v = PyFloat y.
Proof.
  cbn [py_round]. unfold float_round.
  destruct (negb (is_finite x)); [intros [= <-]; eauto|].
  destruct (dec >? NDIGITS_MAX); [intros [= <-]; eauto|].
  destruct (dec <? NDIGITS_MIN); [intros [= <-]; eauto|].
  apply double_round_returns.
Qed.

Lemma round_raises q dec e : py_round q dec = Raise e -> e = OverflowError.
Proof.
  destruct q as [z|x]; cbn [py_round]; [discriminate|]. unfold float_round.
  destruct (negb (is_finite x)); [discriminate|].
  destruct (dec >? NDIGITS_MAX); [discriminate|].
  destruct (dec <? NDIGITS_MIN); [discriminate|].
  apply double_round_raises.
Qed.

(** Beyond 323 places rounding leaves every float as it is. *)
Lemma round_beyond_precision x dec :
  NDIGITS_MAX < dec -> py_round (PyFloat x) dec = Return (PyFloat x).
Proof.
  intros H. cbn [py_round]. unfold float_round.
  destruct (negb (is_finite x)); [reflexivity|].
  destruct (Z.gtb_spec dec NDIGITS_MAX); [reflexivity|lia].
Qed.

Lemma pow2_returns_float libm_pow x v :
  py_pow2 libm_pow (PyFloat x) = Return v -> exists y, v = PyFloat y.
Proof.
  cbn [py_pow2]. unfold float_pow2. intros H.
  repeat match type of H with
         | (if ?c then _ else _) = _ => destruct c
         | (let '(_, _) := ?p in _) = _ => destruct p
         | match ?e with ENONE => _ | _ => _ end = _ => destruct e
         end; try discriminate; injection H as <-; eauto.
Qed.

End Results.
